(** * bedrock-code-generator: the Lambda handler of [lambda_function.py]

    A shallow embedding of the handler, of the two-step generation routine
    and of the text-extraction helper, with the Bedrock client as an
    arbitrary state machine, followed by the properties the specification
    states about them. *)

From Stdlib Require Import ZArith QArith List String Ascii Bool Lia.
From Stdlib Require Import DecimalString.
Import ListNotations.

Local Open Scope string_scope.
Local Open Scope Z_scope.

(** ** Python values

    The payloads are the loosely typed values of the interpreter ([Any] in
    the annotations).  A [str] is a [string], one character per code point
    (below 256); a [dict] keeps its insertion order, which [json.dumps] and
    [repr] follow.  Floats and bytes do not occur in the handler and are
    left out. *)

#[warnings="-register-all"]
Inductive value : Type :=
| VNone
| VBool (b : bool)
| VInt (z : Z)
| VStr (s : string)
| VList (l : list value)
| VDict (d : list (string * value)).

Definition dict : Type := list (string * value).

(** [d.get(k)]: the binding of [k], if there is one. *)
Fixpoint dict_get (k : string) (d : dict) : option value :=
  match d with
  | [] => None
  | (k', v) :: d' => if String.eqb k k' then Some v else dict_get k d'
  end.

(** [k in d]. *)
Definition dict_in (k : string) (d : dict) : bool :=
  match dict_get k d with
  | Some _ => true
  | None => false
  end.

(** [type(v).__name__], as the interpreter's messages print it. *)
Definition type_name (v : value) : string :=
  match v with
  | VNone => "NoneType"
  | VBool _ => "bool"
  | VInt _ => "int"
  | VStr _ => "str"
  | VList _ => "list"
  | VDict _ => "dict"
  end.

(** ** Text of values: [repr], [str] and [format] *)

Definition string_of_char (c : ascii) : string := String c EmptyString.

Definition squote : ascii := "039"%char.
Definition dquote : ascii := "034"%char.
Definition backslash : ascii := "092"%char.

Definition hex_digit (n : N) : ascii :=
  ascii_of_N (if (n <? 10)%N then 48 + n else 87 + n)%N.

(** Two lower-case hexadecimal digits of a code point below 256. *)
Definition hex2 (n : N) : string :=
  String (hex_digit (N.shiftr n 4)) (string_of_char (hex_digit (N.land n 15))).

Definition string_of_Z (z : Z) : string :=
  NilZero.string_of_int (Z.to_int z).


Fixpoint string_mem (c : ascii) (s : string) : bool :=
  match s with
  | EmptyString => false
  | String c' s' => Ascii.eqb c c' || string_mem c s'
  end.

(** [str.isprintable] on a code point below 256: the controls, the
    no-break space and the soft hyphen are not printable. *)
Definition isprintable (n : N) : bool :=
  ((32 <=? n) && (n <? 127) || (160 <? n) && negb (n =? 173))%N.

Definition repr_char (quote c : ascii) : string :=
  let n := N_of_ascii c in
  if Ascii.eqb c quote || Ascii.eqb c backslash
  then String backslash (string_of_char c)
  else if (n =? 9)%N then "\t"
  else if (n =? 10)%N then "\n"
  else if (n =? 13)%N then "\r"
  else if isprintable n then string_of_char c
  else "\x" ++ hex2 n.

Fixpoint repr_chars (quote : ascii) (s : string) : string :=
  match s with
  | EmptyString => EmptyString
  | String c s' => repr_char quote c ++ repr_chars quote s'
  end.

(** [repr] of a [str]: single quotes, unless the text holds a single quote
    and no double quote. *)
Definition repr_str (s : string) : string :=
  let quote :=
    if string_mem squote s && negb (string_mem dquote s)
    then dquote else squote in
  string_of_char quote ++ repr_chars quote s ++ string_of_char quote.

(** [", ".join(l)]. *)
Fixpoint join_comma (l : list string) : string :=
  match l with
  | [] => EmptyString
  | [x] => x
  | x :: l' => x ++ ", " ++ join_comma l'
  end.

Fixpoint repr (v : value) : string :=
  match v with
  | VNone => "None"
  | VBool true => "True"
  | VBool false => "False"
  | VInt z => string_of_Z z
  | VStr s => repr_str s
  | VList l => "[" ++ join_comma (map repr l) ++ "]"
  | VDict d =>
      "{" ++ join_comma (map (fun kv => repr_str (fst kv) ++ ": " ++ repr (snd kv)) d)
          ++ "}"
  end.

(** What an f-string puts in place of [{v}]: [format(v, '')], which is
    [str(v)]; a [str] stands for itself, anything else for its [repr]. *)
Definition format (v : value) : string :=
  match v with
  | VStr s => s
  | _ => repr v
  end.


(** ** [json.dumps]

    The serialiser with its defaults: [ensure_ascii] on, the separators
    [", "] and [": "]. *)

(** One character of [py_encode_basestring_ascii]: the printable ASCII
    characters stand for themselves, apart from the quote and the
    backslash; the others are escaped. *)
Definition json_escape_char (c : ascii) : string :=
  let n := N_of_ascii c in
  if Ascii.eqb c dquote then String backslash (string_of_char dquote)
  else if Ascii.eqb c backslash then String backslash (string_of_char backslash)
  else if (n =? 8)%N then "\b"
  else if (n =? 12)%N then "\f"
  else if (n =? 10)%N then "\n"
  else if (n =? 13)%N then "\r"
  else if (n =? 9)%N then "\t"
  else if ((32 <=? n) && (n <=? 126))%N then string_of_char c
  else "\u00" ++ hex2 n.

Fixpoint json_escape (s : string) : string :=
  match s with
  | EmptyString => EmptyString
  | String c s' => json_escape_char c ++ json_escape s'
  end.

Definition json_string (s : string) : string :=
  string_of_char dquote ++ json_escape s ++ string_of_char dquote.

Fixpoint json_dumps (v : value) : string :=
  match v with
  | VNone => "null"
  | VBool true => "true"
  | VBool false => "false"
  | VInt z => string_of_Z z
  | VStr s => json_string s
  | VList l => "[" ++ join_comma (map json_dumps l) ++ "]"
  | VDict d =>
      "{" ++ join_comma
               (map (fun kv => json_string (fst kv) ++ ": " ++ json_dumps (snd kv)) d)
          ++ "}"
  end.


(** ** Exceptions

    Instances of [Exception], which is what the handler's [except] clause
    matches: the class, and the text [str(e)] gives.  [ClientError] stands
    for botocore's class and its subclasses. *)

Inductive exn_class : Type :=
| ClientError
| KeyError
| TypeError
| AttributeError
| OtherException (name : string).

Record exn : Type := Exn { exn_type : exn_class; exn_str : string }.

Definition is_ClientError (e : exn) : bool :=
  match exn_type e with
  | ClientError => true
  | _ => false
  end.

(** The outcome of an expression that may raise. *)
Definition result (A : Type) : Type := (exn + A)%type.

Definition rbind {A B : Type} (r : result A) (k : A -> result B) : result B :=
  match r with
  | inl e => inl e
  | inr a => k a
  end.

Notation "'let?' x ':=' r 'in' k" := (rbind r (fun x => k))
  (at level 10, x name, r at level 100, k at level 200).

(** ** Operations of the interpreter on loosely typed values

    The texts of [TypeError] and [AttributeError] are CPython 3.11's. *)

(** [v[k]] for a [str] key. *)
Definition py_getitem (v : value) (k : string) : result value :=
  match v with
  | VDict d =>
      match dict_get k d with
      | Some x => inr x
      | None => inl (Exn KeyError (repr_str k))
      end
  | VStr _ => inl (Exn TypeError "string indices must be integers, not 'str'")
  | VList _ => inl (Exn TypeError "list indices must be integers or slices, not str")
  | _ => inl (Exn TypeError ("'" ++ type_name v ++ "' object is not subscriptable"))
  end.

(** [v.get(k, default)]: only a [dict] has the method. *)
Definition py_get (v : value) (k : string) (default : value) : result value :=
  match v with
  | VDict d =>
      match dict_get k d with
      | Some x => inr x
      | None => inr default
      end
  | _ => inl (Exn AttributeError ("'" ++ type_name v ++ "' object has no attribute 'get'"))
  end.

(** The items [for b in v] runs through: the elements of a list, the
    characters of a [str], the keys of a [dict]. *)
Definition py_iter (v : value) : result (list value) :=
  match v with
  | VList l => inr l
  | VStr s => inr (map (fun c => VStr (string_of_char c)) (list_ascii_of_string s))
  | VDict d => inr (map (fun kv => VStr (fst kv)) d)
  | _ => inl (Exn TypeError ("'" ++ type_name v ++ "' object is not iterable"))
  end.

(** ** Constants of the module *)

Definition newline : string := string_of_char "010"%char.

Definition REGION : string := "eu-north-1".
Definition CODER_MODEL_ID : string := "qwen.qwen3-coder-480b-a35b-v1:0".
Definition PROMPT_CODE_SECTION_DELIMITER : string := newline ++ "###" ++ newline.

(** ** [_extract_text] *)

(** The filter of the generator: [isinstance(b, dict) and "text" in b]. *)
Definition is_text_block (b : value) : bool :=
  match b with
  | VDict d => dict_in "text" d
  | _ => false
  end.

(** [next((b["text"] for b in content if ...), "")]. *)
Definition next_text (content : list value) : result value :=
  match find is_text_block content with
  | Some b => py_getitem b "text"
  | None => inr (VStr EmptyString)
  end.

Definition _extract_text (message : value) : result value :=
  let? content := py_get message "content" (VList []) in
  let? blocks := py_iter content in
  next_text blocks.

(** ** The Bedrock client and the effects of the handler *)

Record inference_config : Type :=
  { maxTokens : Z; temperature : Q }.

(** The keyword arguments of one [converse] call. *)
Record converse_request : Type :=
  { modelId : string;
    system : list value;
    messages : list value;
    inferenceConfig : inference_config }.

(** The request [_call_bedrock] builds around a conversation: the model,
    the system instruction and the inference settings are fixed. *)
Definition bedrock_request (messages : list value) : converse_request :=
  {| modelId := CODER_MODEL_ID;
     system :=
       [VDict [("text", VStr "You are a lead software engineer. Be clear and concise.")]];
     messages := messages;
     inferenceConfig := {| maxTokens := 2048; temperature := 2 # 10 |} |}.

(** ** Turns, prompts and responses *)

(** A user turn: [{"role": "user", "content": [{"text": prompt}]}]. *)
Definition user_turn (prompt : string) : value :=
  VDict [("role", VStr "user"); ("content", VList [VDict [("text", VStr prompt)]])].

Definition task_analysis_prompt (message code_language : value) : string :=
  "Analyze the following request and determine the necessary steps to accomplish it in "
    ++ format code_language ++ ":"
    ++ PROMPT_CODE_SECTION_DELIMITER ++ format message ++ PROMPT_CODE_SECTION_DELIMITER
    ++ "Respond only with a numbered list of steps, nothing else.".

Definition code_generation_prompt (code_language : value) : string :=
  "Generate the " ++ format code_language
    ++ " code according to the previously defined steps."
    ++ "Take your time to ensure accuracy and completeness."
    ++ "Respond only with the generated code, nothing else.".

(** [response["output"]["message"]]. *)
Definition output_message (response : value) : result value :=
  let? output := py_getitem response "output" in
  py_getitem output "message".

(** The dict the handler returns: [{'statusCode': status, 'body': body}]. *)
Definition response (status : Z) (body : string) : value :=
  VDict [("statusCode", VInt status); ("body", VStr body)].

(** ** The handler and the generation routine *)

Section Handler.

(** The client is an arbitrary state machine: on a request it raises or
    returns a response, and moves to its next state. *)
Variable client_state : Type.
Variable converse : client_state -> converse_request -> result value * client_state.

(** What a run can touch: the client, the requests sent to it so far
    (each with the conversation as it stood when it was sent) and the
    lines printed. *)
Record world : Type :=
  { bedrock_runtime : client_state;
    requests : list converse_request;
    stdout : list string }.

(** A computation that may raise and that keeps its effects when it does. *)
Definition M (A : Type) : Type := world -> result A * world.

Definition ret {A : Type} (a : A) : M A := fun w => (inr a, w).

Definition raise {A : Type} (e : exn) : M A := fun w => (inl e, w).

Definition bind {A B : Type} (c : M A) (k : A -> M B) : M B :=
  fun w =>
    match c w with
    | (inl e, w') => (inl e, w')
    | (inr a, w') => k a w'
    end.

Definition lift {A : Type} (r : result A) : M A := fun w => (r, w).

(** [try: c  except <class> as e: h e], where [catches] tells the
    instances of the class. *)
Definition try_except {A : Type} (c : M A) (catches : exn -> bool) (h : exn -> M A)
  : M A :=
  fun w =>
    match c w with
    | (inl e, w') => if catches e then h e w' else (inl e, w')
    | (inr a, w') => (inr a, w')
    end.

Definition print (line : string) : M unit :=
  fun w =>
    (inr tt,
     {| bedrock_runtime := bedrock_runtime w;
        requests := requests w;
        stdout := (stdout w ++ [line])%list |}).

Notation "x <- c ;; k" := (bind c (fun x => k))
  (at level 61, c at next level, right associativity).
Notation "c ;;; k" := (bind c (fun _ => k))
  (at level 61, right associativity).

Definition _call_bedrock (messages : list value) : M value :=
  fun w =>
    let request := bedrock_request messages in
    let (r, c') := converse (bedrock_runtime w) request in
    (r,
     {| bedrock_runtime := c';
        requests := (requests w ++ [request])%list;
        stdout := stdout w |}).

Definition generate_code_using_bedrock (message code_language : value) : M value :=
  let body := [user_turn (task_analysis_prompt message code_language)] in
  try_except
    (task_decomposition_response <- _call_bedrock body ;;
     task_decomposition_text <- lift (output_message task_decomposition_response) ;;
     let body := (body ++ [task_decomposition_text])%list in
     let body := (body ++ [user_turn (code_generation_prompt code_language)])%list in
     code_generation_response <- _call_bedrock body ;;
     code_generation_response_text <- lift (output_message code_generation_response) ;;
     generated_code <- lift (_extract_text code_generation_response_text) ;;
     ret generated_code)
    is_ClientError
    (fun e => print ("Error during Bedrock interaction: " ++ exn_str e) ;;; raise e).

Definition lambda_handler (event : dict) (context : value) : M value :=
  try_except
    (if negb (dict_in "message" event) then
       ret (response 400
              (json_dumps (VDict [("error", VStr "Missing required parameter: message")])))
     else if negb (dict_in "code_language" event) then
       ret (response 400
              (json_dumps
                 (VDict [("error", VStr "Missing required parameter: code_language")])))
     else
       message <- lift (py_getitem (VDict event) "message") ;;
       code_language <- lift (py_getitem (VDict event) "code_language") ;;
       generated_code <- generate_code_using_bedrock message code_language ;;
       ret (response 200 (json_dumps (VDict [("code", generated_code)]))))
    (fun _ => true)
    (fun e =>
       print ("Error in lambda_handler: " ++ exn_str e) ;;;
       ret (response 500 (json_dumps (VDict [("error", VStr (exn_str e))])))).

End Handler.

Arguments bedrock_runtime {client_state} _.
Arguments requests {client_state} _.
Arguments stdout {client_state} _.
Arguments Build_world {client_state} _ _ _.

Arguments lambda_handler {client_state} converse event context w.
Arguments generate_code_using_bedrock {client_state} converse message code_language w.
Arguments _call_bedrock {client_state} converse messages w.

(** ** Example clients and payloads *)

(** An assistant turn holding one text block. *)
Definition assistant_turn (text : string) : value :=
  VDict [("role", VStr "assistant"); ("content", VList [VDict [("text", VStr text)]])].

(** A [converse] response around a reply message. *)
Definition converse_response (message : value) : value :=
  VDict [("output", VDict [("message", message)]); ("stopReason", VStr "end_turn")].

(** A stub that counts its calls: the first reply is a list of steps, every
    later one the code. *)
Definition stub_client (calls : nat) (request : converse_request)
  : result value * nat :=
  match calls with
  | O => (inr (converse_response (assistant_turn "1. Take s. 2. Reverse it.")), S calls)
  | S _ => (inr (converse_response (assistant_turn "def reverse(s): return s[::-1]")), S calls)
  end.

(** A client whose every call fails. *)
Definition failing_client (calls : nat) (request : converse_request)
  : result value * nat :=
  (inl (Exn ClientError
          "An error occurred (ThrottlingException) when calling the Converse operation: Too many requests"),
   S calls).

Definition fresh_world : world nat :=
  {| bedrock_runtime := O; requests := []; stdout := [] |}.

Definition reverse_event : dict :=
  [("message", VStr "reverse a string"); ("code_language", VStr "Python")].

(** A text between double quotes, as it stands in a JSON document. *)
Definition quoted (s : string) : string :=
  string_of_char dquote ++ s ++ string_of_char dquote.

(** [s] occurs in [t]. *)
Definition mentions (s t : string) : bool :=
  match String.index 0 s t with
  | Some _ => true
  | None => false
  end.

(** ** Vocabulary of the statements *)

(** [b] is a dict that has the field ["text"], holding [t]. *)
Definition has_text (b t : value) : Prop :=
  exists fields, b = VDict fields /\ dict_get "text" fields = Some t.

(** [b] is no dict, or a dict without the field. *)
Definition no_text (b : value) : Prop := forall t, ~ has_text b t.

(** The line the routine prints when it sees a [ClientError] go by. *)
Definition interaction_log (e : exn) (out : list string) : list string :=
  if is_ClientError e
  then (out ++ [("Error during Bedrock interaction: " ++ exn_str e)%string])%list
  else out.

(** The text of the routine after the second call has come back. *)
Definition read_code (r : result value) : result value :=
  let? code_generation_response := r in
  let? code_generation_response_text := output_message code_generation_response in
  _extract_text code_generation_response_text.

(** What the handler makes of the routine's outcome. *)
Definition handler_outcome {client_state : Type}
  (r : result value * world client_state) : result value * world client_state :=
  match r with
  | (inr generated_code, w') =>
      (inr (response 200 (json_dumps (VDict [("code", generated_code)]))), w')
  | (inl e, w') =>
      (inr (response 500 (json_dumps (VDict [("error", VStr (exn_str e))]))),
       {| bedrock_runtime := bedrock_runtime w';
          requests := requests w';
          stdout :=
            (stdout w' ++ [("Error in lambda_handler: " ++ exn_str e)%string])%list |})
  end.

(** A client that plays a script, one outcome per call, and fails once the
    script is over. *)
Definition scripted_client (script : list (result value)) (request : converse_request)
  : result value * list (result value) :=
  match script with
  | [] => (inl (Exn (OtherException "StopIteration") EmptyString), [])
  | outcome :: script' => (outcome, script')
  end.

Definition scripted_world (script : list (result value)) : world (list (result value)) :=
  {| bedrock_runtime := script; requests := []; stdout := [] |}.

(** The settings every request of [_call_bedrock] carries. *)
Definition fixed_settings (q : converse_request) : Prop :=
  modelId q = "qwen.qwen3-coder-480b-a35b-v1:0"
  /\ system q
     = [VDict [("text", VStr "You are a lead software engineer. Be clear and concise.")]]
  /\ maxTokens (inferenceConfig q) = 2048
  /\ temperature (inferenceConfig q) = 2 # 10.

(** The lines a run of the handler prints for the outcome of the routine:
    none on success, one for a failure, two when the failure is a
    [ClientError]. *)
Definition failure_lines (r : result value) : list string :=
  match r with
  | inr _ => []
  | inl e =>
      ((if is_ClientError e
        then [("Error during Bedrock interaction: " ++ exn_str e)%string]
        else [])
         ++ [("Error in lambda_handler: " ++ exn_str e)%string])%list
  end.

Arguments task_analysis_prompt : simpl never.
Arguments code_generation_prompt : simpl never.
Arguments json_dumps : simpl never.
Arguments bedrock_request : simpl never.
Arguments output_message : simpl never.
Arguments _extract_text : simpl never.

(** * Properties *)

(** ** Strings and dictionaries *)

Lemma string_app_assoc (a b c : string) : (a ++ b) ++ c = a ++ (b ++ c).
Proof.
  induction a as [| x a IH]; simpl; [reflexivity | now rewrite IH].
Qed.

Lemma dict_in_true (k : string) (d : dict) :
  dict_in k d = true <-> exists v, dict_get k d = Some v.
Proof.
  unfold dict_in; destruct (dict_get k d) as [v |]; split; intros H;
    try reflexivity; try discriminate.
  - now exists v.
  - destruct H as [v H]; discriminate.
Qed.

Lemma dict_in_false (k : string) (d : dict) :
  dict_in k d = false <-> dict_get k d = None.
Proof.
  unfold dict_in; destruct (dict_get k d); split; intros H;
    try reflexivity; discriminate.
Qed.

(** ** The text-extraction helper *)

Lemma is_text_block_true (b : value) :
  is_text_block b = true <-> exists t, has_text b t.
Proof.
  split.
  - destruct b as [| | | | |fields]; simpl; try discriminate.
    intros H; apply dict_in_true in H; destruct H as [t H].
    exists t, fields; auto.
  - intros (t & fields & -> & H); simpl.
    apply dict_in_true; eauto.
Qed.

Lemma is_text_block_false (b : value) :
  is_text_block b = false <-> no_text b.
Proof.
  split.
  - intros H t Ht.
    assert (is_text_block b = true) by (apply is_text_block_true; eauto).
    congruence.
  - intros H; destruct (is_text_block b) eqn:E; [| reflexivity].
    apply is_text_block_true in E; destruct E as [t Ht]; destruct (H t Ht).
Qed.

Lemma find_text_block_skip (pre rest : list value) :
  Forall no_text pre ->
  find is_text_block (pre ++ rest) = find is_text_block rest.
Proof.
  induction 1 as [| b pre Hb _ IH]; simpl; [reflexivity |].
  apply is_text_block_false in Hb; now rewrite Hb.
Qed.

Lemma next_text_first (pre post : list value) (b t : value) :
  Forall no_text pre -> has_text b t ->
  next_text (pre ++ b :: post) = inr t.
Proof.
  intros Hpre Hb; unfold next_text.
  rewrite find_text_block_skip by assumption; simpl.
  assert (E : is_text_block b = true) by (apply is_text_block_true; eauto).
  rewrite E.
  destruct Hb as (fields & -> & Ht); simpl; now rewrite Ht.
Qed.

Lemma next_text_none (content : list value) :
  Forall no_text content -> next_text content = inr (VStr EmptyString).
Proof.
  intros H; unfold next_text.
  rewrite <- (app_nil_r content), find_text_block_skip by assumption.
  reflexivity.
Qed.

Lemma next_text_total (content : list value) : exists v, next_text content = inr v.
Proof.
  unfold next_text; destruct (find is_text_block content) as [b |] eqn:E.
  - apply find_some in E; destruct E as [_ E].
    apply is_text_block_true in E; destruct E as (t & fields & -> & Ht).
    exists t; simpl; now rewrite Ht.
  - eauto.
Qed.

Lemma extract_text_content (fields : dict) (content : list value) :
  dict_get "content" fields = Some (VList content) ->
  _extract_text (VDict fields) = next_text content.
Proof.
  intros H; unfold _extract_text; simpl; now rewrite H.
Qed.

(** C4: on a reply message whose content is a list of blocks,
    [_extract_text] returns the ["text"] field of the first block that has
    one, whatever blocks come after it, and the empty string when no block
    of the list has one; the empty list is such a list. *)
Theorem extract_text_first_text_block (fields : dict) (content : list value) :
  dict_get "content" fields = Some (VList content) ->
  (forall pre b post t,
      content = (pre ++ b :: post)%list -> Forall no_text pre -> has_text b t ->
      _extract_text (VDict fields) = inr t)
  /\ (Forall no_text content -> _extract_text (VDict fields) = inr (VStr EmptyString))
  /\ (content = [] -> _extract_text (VDict fields) = inr (VStr EmptyString)).
Proof.
  intros Hc; rewrite (extract_text_content _ _ Hc); repeat split.
  - intros pre b post t -> Hpre Hb; now apply next_text_first.
  - apply next_text_none.
  - intros ->; reflexivity.
Qed.

Lemma extract_text_first_text_block_witness :
  _extract_text
    (VDict [("role", VStr "assistant");
            ("content",
             VList [VStr "stray"; VDict [("image", VNone)];
                    VDict [("text", VStr "first")]; VDict [("text", VStr "second")]])])
  = inr (VStr "first")
  /\ _extract_text (VDict [("content", VList [VInt 7; VDict [("toolUse", VDict [])]])])
     = inr (VStr EmptyString)
  /\ _extract_text (VDict [("content", VList [])]) = inr (VStr EmptyString).
Proof.
  assert (N1 : no_text (VStr "stray")) by (now apply is_text_block_false).
  assert (N2 : no_text (VDict [("image", VNone)])) by (now apply is_text_block_false).
  assert (N3 : no_text (VInt 7)) by (now apply is_text_block_false).
  assert (N4 : no_text (VDict [("toolUse", VDict [])])) by (now apply is_text_block_false).
  split; [| split].
  - refine (proj1 (extract_text_first_text_block
                     [("role", VStr "assistant");
                      ("content",
                       VList [VStr "stray"; VDict [("image", VNone)];
                              VDict [("text", VStr "first")];
                              VDict [("text", VStr "second")]])]
                     _ eq_refl)
              [VStr "stray"; VDict [("image", VNone)]]
              (VDict [("text", VStr "first")])
              [VDict [("text", VStr "second")]]
              (VStr "first") eq_refl _ _).
    + repeat constructor; assumption.
    + exists [("text", VStr "first")]; split; reflexivity.
  - apply (proj1 (proj2 (extract_text_first_text_block
                           [("content", VList [VInt 7; VDict [("toolUse", VDict [])]])]
                           _ eq_refl))).
    repeat constructor; assumption.
  - apply (proj2 (proj2 (extract_text_first_text_block
                           [("content", VList [])] _ eq_refl))).
    reflexivity.
Defined.

(** C5: [_extract_text] returns a value, and raises nothing, on every
    message whose content is a list, whatever the blocks of the list are:
    entries that are no dicts, dicts without ["text"], or none at all. *)
Theorem extract_text_total (fields : dict) (content : list value) :
  dict_get "content" fields = Some (VList content) ->
  exists text, _extract_text (VDict fields) = inr text.
Proof.
  intros Hc; rewrite (extract_text_content _ _ Hc); apply next_text_total.
Qed.

Lemma extract_text_total_witness :
  exists text,
    _extract_text
      (VDict [("content", VList [VNone; VInt 3; VStr "text"; VList [VStr "text"];
                                 VDict [("json", VDict [])]; VDict []])])
    = inr text.
Proof.
  apply (extract_text_total _ [VNone; VInt 3; VStr "text"; VList [VStr "text"];
                               VDict [("json", VDict [])]; VDict []]).
  reflexivity.
Defined.

(** ** The generation routine and the handler, call by call *)

Section Runs.

Variable client_state : Type.
Variable converse : client_state -> converse_request -> result value * client_state.

Variables message code_language : value.

Let first_turn : value := user_turn (task_analysis_prompt message code_language).
Let second_turn : value := user_turn (code_generation_prompt code_language).

Lemma generate_first_call_raises (w : world client_state) e c1 :
  converse (bedrock_runtime w) (bedrock_request [first_turn]) = (inl e, c1) ->
  generate_code_using_bedrock converse message code_language w
  = (inl e,
     {| bedrock_runtime := c1;
        requests := (requests w ++ [bedrock_request [first_turn]])%list;
        stdout := interaction_log e (stdout w) |}).
Proof.
  intros H.
  unfold generate_code_using_bedrock, try_except, bind, _call_bedrock; simpl.
  fold first_turn; rewrite H; simpl.
  unfold interaction_log, print, raise; destruct (is_ClientError e); reflexivity.
Qed.

Lemma generate_no_reply_message (w : world client_state) r1 c1 e :
  converse (bedrock_runtime w) (bedrock_request [first_turn]) = (inr r1, c1) ->
  output_message r1 = inl e ->
  generate_code_using_bedrock converse message code_language w
  = (inl e,
     {| bedrock_runtime := c1;
        requests := (requests w ++ [bedrock_request [first_turn]])%list;
        stdout := interaction_log e (stdout w) |}).
Proof.
  intros H1 Hm.
  unfold generate_code_using_bedrock, try_except, bind, _call_bedrock, lift; simpl.
  fold first_turn; rewrite H1; simpl; rewrite Hm.
  unfold interaction_log, print, raise; destruct (is_ClientError e); reflexivity.
Qed.

Lemma generate_second_call (w : world client_state) r1 c1 m1 r2 c2 :
  converse (bedrock_runtime w) (bedrock_request [first_turn]) = (inr r1, c1) ->
  output_message r1 = inr m1 ->
  converse c1 (bedrock_request [first_turn; m1; second_turn]) = (r2, c2) ->
  generate_code_using_bedrock converse message code_language w
  = (read_code r2,
     {| bedrock_runtime := c2;
        requests :=
          (requests w ++ [bedrock_request [first_turn];
                          bedrock_request [first_turn; m1; second_turn]])%list;
        stdout :=
          match read_code r2 with
          | inl e => interaction_log e (stdout w)
          | inr _ => stdout w
          end |}).
Proof.
  intros H1 Hm H2.
  unfold generate_code_using_bedrock, try_except, bind, _call_bedrock, lift; simpl.
  fold first_turn second_turn; rewrite H1; simpl; rewrite Hm; simpl.
  rewrite H2; simpl; rewrite <- app_assoc; simpl.
  unfold read_code; destruct r2 as [e | r2]; simpl.
  - unfold interaction_log, print, raise; destruct (is_ClientError e); reflexivity.
  - destruct (output_message r2) as [e | m2]; simpl.
    + unfold interaction_log, print, raise; destruct (is_ClientError e); reflexivity.
    + destruct (_extract_text m2) as [e | code]; simpl; [| reflexivity].
      unfold interaction_log, print, raise; destruct (is_ClientError e); reflexivity.
Qed.

Lemma lambda_handler_valid (event : dict) (context : value) (w : world client_state) :
  dict_get "message" event = Some message ->
  dict_get "code_language" event = Some code_language ->
  lambda_handler converse event context w
  = handler_outcome (generate_code_using_bedrock converse message code_language w).
Proof.
  intros Hm Hc.
  unfold lambda_handler, try_except, dict_in; rewrite Hm, Hc; simpl.
  unfold bind, lift; simpl; rewrite Hm, Hc.
  destruct (generate_code_using_bedrock converse message code_language w)
    as [[e | code] w']; reflexivity.
Qed.

End Runs.

(** ** The two-step protocol *)

(** The turns the routine builds for a request text and a language, spelt
    out. *)
Lemma first_turn_spelt_out (m lang : string) :
  user_turn (task_analysis_prompt (VStr m) (VStr lang))
  = VDict
      [("role", VStr "user");
       ("content",
        VList
          [VDict
             [("text",
               VStr
                 ("Analyze the following request and determine the necessary steps to accomplish it in "
                    ++ lang ++ ":"
                    ++ String "010"%char ("###" ++ String "010"%char EmptyString) ++ m
                    ++ String "010"%char ("###" ++ String "010"%char EmptyString)
                    ++ "Respond only with a numbered list of steps, nothing else."))]])].
Proof.
  reflexivity.
Qed.

Lemma second_turn_spelt_out (lang : string) :
  user_turn (code_generation_prompt (VStr lang))
  = VDict
      [("role", VStr "user");
       ("content",
        VList
          [VDict
             [("text",
               VStr
                 ("Generate the " ++ lang
                    ++ " code according to the previously defined steps.Take your time to ensure accuracy and completeness.Respond only with the generated code, nothing else."))]])].
Proof.
  reflexivity.
Qed.

(** C1: for a request text [m] and a language [lang], when the first call
    returns a response that carries a reply message under ["output"] and
    ["message"], the routine sends exactly two requests.  The conversation
    of the first is one turn of role ["user"] whose text is the
    step-decomposition prompt; the conversation of the second is three
    turns: that same turn, the reply message as the client returned it, and
    a turn of role ["user"] whose text is the code-generation prompt. *)
Theorem generate_two_calls_three_turns
  (client_state : Type)
  (converse : client_state -> converse_request -> result value * client_state)
  (m lang : string) (w : world client_state)
  (fields output : dict) (c1 : client_state) (reply : value) :
  let sentinel := String "010"%char ("###" ++ String "010"%char EmptyString) in
  let first_turn :=
    VDict
      [("role", VStr "user");
       ("content",
        VList
          [VDict
             [("text",
               VStr
                 ("Analyze the following request and determine the necessary steps to accomplish it in "
                    ++ lang ++ ":" ++ sentinel ++ m ++ sentinel
                    ++ "Respond only with a numbered list of steps, nothing else."))]])] in
  let second_turn :=
    VDict
      [("role", VStr "user");
       ("content",
        VList
          [VDict
             [("text",
               VStr
                 ("Generate the " ++ lang
                    ++ " code according to the previously defined steps."
                    ++ "Take your time to ensure accuracy and completeness."
                    ++ "Respond only with the generated code, nothing else."))]])] in
  converse (bedrock_runtime w) (bedrock_request [first_turn]) = (inr (VDict fields), c1) ->
  dict_get "output" fields = Some (VDict output) ->
  dict_get "message" output = Some reply ->
  exists q1 q2,
    requests (snd (generate_code_using_bedrock converse (VStr m) (VStr lang) w))
    = (requests w ++ [q1; q2])%list
    /\ messages q1 = [first_turn]
    /\ messages q2 = [first_turn; reply; second_turn].
Proof.
  intros sentinel first_turn second_turn H1 Ho Hm.
  assert (Hr : output_message (VDict fields) = inr reply).
  { unfold output_message; simpl; rewrite Ho; simpl; now rewrite Hm. }
  assert (E1 : user_turn (task_analysis_prompt (VStr m) (VStr lang)) = first_turn)
    by apply first_turn_spelt_out.
  assert (E2 : user_turn (code_generation_prompt (VStr lang)) = second_turn)
    by apply second_turn_spelt_out.
  rewrite <- E1 in H1.
  destruct (converse c1
              (bedrock_request
                 [user_turn (task_analysis_prompt (VStr m) (VStr lang)); reply;
                  user_turn (code_generation_prompt (VStr lang))]))
    as [r2 c2] eqn:H2.
  rewrite (generate_second_call _ _ _ _ _ _ _ _ _ _ H1 Hr H2); simpl.
  rewrite E1, E2.
  eexists _, _; repeat split; reflexivity.
Qed.

Lemma generate_two_calls_three_turns_witness :
  exists q1 q2,
    requests
      (snd (generate_code_using_bedrock stub_client
              (VStr "reverse a string") (VStr "Python") fresh_world))
    = [q1; q2]
    /\ messages q1
       = [VDict
            [("role", VStr "user");
             ("content",
              VList
                [VDict
                   [("text",
                     VStr
                       ("Analyze the following request and determine the necessary steps to accomplish it in Python:"
                          ++ String "010"%char "###"
                          ++ String "010"%char "reverse a string"
                          ++ String "010"%char "###"
                          ++ String "010"%char
                               "Respond only with a numbered list of steps, nothing else."))]])]]
    /\ messages q2
       = [VDict
            [("role", VStr "user");
             ("content",
              VList
                [VDict
                   [("text",
                     VStr
                       ("Analyze the following request and determine the necessary steps to accomplish it in Python:"
                          ++ String "010"%char "###"
                          ++ String "010"%char "reverse a string"
                          ++ String "010"%char "###"
                          ++ String "010"%char
                               "Respond only with a numbered list of steps, nothing else."))]])];
          VDict
            [("role", VStr "assistant");
             ("content", VList [VDict [("text", VStr "1. Take s. 2. Reverse it.")]])];
          VDict
            [("role", VStr "user");
             ("content",
              VList
                [VDict
                   [("text",
                     VStr
                       "Generate the Python code according to the previously defined steps.Take your time to ensure accuracy and completeness.Respond only with the generated code, nothing else.")]])]].
Proof.
  exact (generate_two_calls_three_turns nat stub_client
           "reverse a string" "Python" fresh_world
           [("output", VDict [("message", assistant_turn "1. Take s. 2. Reverse it.")]);
            ("stopReason", VStr "end_turn")]
           [("message", assistant_turn "1. Take s. 2. Reverse it.")]
           1%nat
           (assistant_turn "1. Take s. 2. Reverse it.") eq_refl eq_refl eq_refl).
Defined.

(** C9: for every request text [m] and every language [lang], whatever the
    client does, the first request carries one turn of role ["user"] whose
    prompt asks for the steps to accomplish the request in [lang], then
    holds [m] between two copies of the same fixed sentinel, a line feed,
    [###] and a line feed, and ends by asking for a numbered list of steps
    and nothing else.  The sentinel is the module's
    [PROMPT_CODE_SECTION_DELIMITER]. *)
Theorem first_prompt_delimits_request
  (client_state : Type)
  (converse : client_state -> converse_request -> result value * client_state)
  (m lang : string) (w : world client_state) :
  let sentinel := String "010"%char ("###" ++ String "010"%char EmptyString) in
  let before :=
    "Analyze the following request and determine the necessary steps to accomplish it in "
      ++ lang ++ ":" in
  let after := "Respond only with a numbered list of steps, nothing else." in
  PROMPT_CODE_SECTION_DELIMITER = sentinel
  /\ exists q1 later,
      requests (snd (generate_code_using_bedrock converse (VStr m) (VStr lang) w))
      = (requests w ++ q1 :: later)%list
      /\ messages q1
         = [VDict
              [("role", VStr "user");
               ("content",
                VList
                  [VDict
                     [("text", VStr (before ++ sentinel ++ m ++ sentinel ++ after))]])]].
Proof.
  intros sentinel before after; split; [reflexivity |].
  set (t1 := user_turn (task_analysis_prompt (VStr m) (VStr lang))).
  assert (Hq : exists later,
             requests (snd (generate_code_using_bedrock converse (VStr m) (VStr lang) w))
             = (requests w ++ bedrock_request [t1] :: later)%list).
  { destruct (converse (bedrock_runtime w) (bedrock_request [t1])) as [[e | r1] c1] eqn:H1.
    - rewrite (generate_first_call_raises _ _ _ _ _ _ _ H1); simpl; eauto.
    - destruct (output_message r1) as [e | m1] eqn:Hm.
      + rewrite (generate_no_reply_message _ _ _ _ _ _ _ _ H1 Hm); simpl; eauto.
      + destruct (converse c1
                    (bedrock_request
                       [t1; m1; user_turn (code_generation_prompt (VStr lang))]))
          as [r2 c2] eqn:H2.
        rewrite (generate_second_call _ _ _ _ _ _ _ _ _ _ H1 Hm H2); simpl; eauto. }
  destruct Hq as [later Hq].
  exists (bedrock_request [t1]), later; split; [exact Hq |].
  unfold t1; rewrite first_turn_spelt_out.
  unfold bedrock_request, before; simpl messages.
  now rewrite !string_app_assoc.
Qed.

Lemma first_prompt_delimits_request_witness :
  exists q1 later,
    requests
      (snd (generate_code_using_bedrock failing_client
              (VStr "reverse a string") (VStr "Python") fresh_world))
    = q1 :: later
    /\ messages q1
       = [VDict
            [("role", VStr "user");
             ("content",
              VList
                [VDict
                   [("text",
                     VStr
                       ("Analyze the following request and determine the necessary steps to accomplish it in Python:"
                          ++ String "010"%char "###"
                          ++ String "010"%char "reverse a string"
                          ++ String "010"%char "###"
                          ++ String "010"%char
                               "Respond only with a numbered list of steps, nothing else."))]])]].
Proof.
  exact (proj2 (first_prompt_delimits_request nat failing_client
                  "reverse a string" "Python" fresh_world)).
Defined.

(** ** Validation *)

(** C2: an event without the key ["message"] gets status 400 with the
    body [{"error": "Missing required parameter: message"}], and the run
    leaves the client, the list of requests and the output as they were:
    nothing is sent. *)
Theorem missing_message_400
  (client_state : Type)
  (converse : client_state -> converse_request -> result value * client_state)
  (event : dict) (context : value) (w : world client_state) :
  dict_in "message" event = false ->
  lambda_handler converse event context w
  = (inr (VDict [("statusCode", VInt 400);
                 ("body",
                  VStr ("{" ++ quoted "error" ++ ": "
                            ++ quoted "Missing required parameter: message" ++ "}"))]),
     w).
Proof.
  intros H; unfold lambda_handler, try_except; rewrite H; reflexivity.
Qed.

Lemma missing_message_400_witness :
  lambda_handler stub_client [("code_language", VStr "Python")] VNone fresh_world
  = (inr (VDict [("statusCode", VInt 400);
                 ("body",
                  VStr ("{" ++ quoted "error" ++ ": "
                            ++ quoted "Missing required parameter: message" ++ "}"))]),
     fresh_world).
Proof.
  apply (missing_message_400 nat stub_client [("code_language", VStr "Python")]
           VNone fresh_world).
  reflexivity.
Defined.

(** C3, as the specification states it, fails: the event [{}] lacks
    ["code_language"], and the answer it gets names ["message"] and does
    not mention ["code_language"]. *)
Lemma missing_code_language_counterexample :
  dict_in "code_language" [] = false
  /\ lambda_handler stub_client [] VNone fresh_world
     = (inr (VDict [("statusCode", VInt 400);
                    ("body",
                     VStr ("{" ++ quoted "error" ++ ": "
                               ++ quoted "Missing required parameter: message" ++ "}"))]),
        fresh_world)
  /\ mentions "code_language"
       ("{" ++ quoted "error" ++ ": "
            ++ quoted "Missing required parameter: message" ++ "}")
     = false
  /\ fst (lambda_handler stub_client [] VNone fresh_world)
     <> inr (VDict [("statusCode", VInt 400);
                    ("body",
                     VStr ("{" ++ quoted "error" ++ ": "
                               ++ quoted "Missing required parameter: code_language"
                               ++ "}"))]).
Proof.
  repeat split; try reflexivity.
  intros H; vm_compute in H; discriminate.
Qed.

(** C3, amended: an event without the key ["code_language"] gets status
    400 and nothing is sent; when the event has the key ["message"] the
    body is [{"error": "Missing required parameter: code_language"}], and
    when it lacks that key too the body names ["message"]. *)
Theorem missing_code_language_400
  (client_state : Type)
  (converse : client_state -> converse_request -> result value * client_state)
  (event : dict) (context : value) (w : world client_state) :
  dict_in "code_language" event = false ->
  exists body,
    lambda_handler converse event context w
    = (inr (VDict [("statusCode", VInt 400); ("body", VStr body)]), w)
    /\ (dict_in "message" event = true ->
        body = "{" ++ quoted "error" ++ ": "
                   ++ quoted "Missing required parameter: code_language" ++ "}")
    /\ (dict_in "message" event = false ->
        body = "{" ++ quoted "error" ++ ": "
                   ++ quoted "Missing required parameter: message" ++ "}").
Proof.
  intros H; unfold lambda_handler, try_except.
  destruct (dict_in "message" event) eqn:Hm; simpl.
  - rewrite H; simpl; eexists; split; [reflexivity |].
    split; [reflexivity | discriminate].
  - eexists; split; [reflexivity |].
    split; [discriminate | reflexivity].
Qed.

Lemma missing_code_language_400_witness :
  exists body,
    lambda_handler stub_client [("message", VStr "reverse a string")] VNone fresh_world
    = (inr (VDict [("statusCode", VInt 400); ("body", VStr body)]), fresh_world)
    /\ (dict_in "message" [("message", VStr "reverse a string")] = true ->
        body = "{" ++ quoted "error" ++ ": "
                   ++ quoted "Missing required parameter: code_language" ++ "}")
    /\ (dict_in "message" [("message", VStr "reverse a string")] = false ->
        body = "{" ++ quoted "error" ++ ": "
                   ++ quoted "Missing required parameter: message" ++ "}").
Proof.
  apply (missing_code_language_400 nat stub_client
           [("message", VStr "reverse a string")] VNone fresh_world).
  reflexivity.
Defined.

(** C10: validation looks at the keys only.  When both keys are present,
    whatever their values, the handler runs the generation routine on
    exactly those values and answers from its outcome: 200 with the code,
    or 500 with the failure; it never answers 400. *)
Theorem validation_tests_presence_only
  (client_state : Type)
  (converse : client_state -> converse_request -> result value * client_state)
  (event : dict) (context : value) (w : world client_state)
  (message code_language : value) :
  dict_get "message" event = Some message ->
  dict_get "code_language" event = Some code_language ->
  lambda_handler converse event context w
  = handler_outcome (generate_code_using_bedrock converse message code_language w)
  /\ requests (snd (lambda_handler converse event context w))
     = requests (snd (generate_code_using_bedrock converse message code_language w))
  /\ (forall body,
         fst (lambda_handler converse event context w)
         <> inr (VDict [("statusCode", VInt 400); ("body", VStr body)])).
Proof.
  intros Hm Hc.
  rewrite (lambda_handler_valid _ converse _ _ event context w Hm Hc).
  destruct (generate_code_using_bedrock converse message code_language w)
    as [[e | code] w']; simpl; repeat split; intros body H; discriminate.
Qed.

Lemma validation_tests_presence_only_witness :
  lambda_handler stub_client
    [("message", VNone); ("code_language", VList [VInt 3; VStr EmptyString])]
    VNone fresh_world
  = handler_outcome
      (generate_code_using_bedrock stub_client
         VNone (VList [VInt 3; VStr EmptyString]) fresh_world).
Proof.
  exact (proj1 (validation_tests_presence_only nat stub_client
                  [("message", VNone); ("code_language", VList [VInt 3; VStr EmptyString])]
                  VNone fresh_world VNone (VList [VInt 3; VStr EmptyString])
                  eq_refl eq_refl)).
Defined.

(** ** Failures *)

(** C7: with both keys present, whatever exception the generation routine
    raises, the handler raises nothing: it returns status 500 with the body
    [{"error": d}], [d] being the text of the exception, after printing
    one line about it. *)
Theorem handler_converts_failure_to_500
  (client_state : Type)
  (converse : client_state -> converse_request -> result value * client_state)
  (event : dict) (context : value) (w w' : world client_state)
  (message code_language : value) (e : exn) :
  dict_get "message" event = Some message ->
  dict_get "code_language" event = Some code_language ->
  generate_code_using_bedrock converse message code_language w = (inl e, w') ->
  lambda_handler converse event context w
  = (inr (VDict [("statusCode", VInt 500);
                 ("body", VStr (json_dumps (VDict [("error", VStr (exn_str e))])))]),
     {| bedrock_runtime := bedrock_runtime w';
        requests := requests w';
        stdout :=
          (stdout w' ++ [("Error in lambda_handler: " ++ exn_str e)%string])%list |})
  /\ json_dumps (VDict [("error", VStr (exn_str e))])
     = "{" ++ quoted "error" ++ ": " ++ quoted (json_escape (exn_str e)) ++ "}".
Proof.
  intros Hm Hc Hg.
  rewrite (lambda_handler_valid _ converse _ _ event context w Hm Hc), Hg.
  split; reflexivity.
Qed.

Lemma handler_converts_failure_to_500_witness :
  fst (lambda_handler failing_client reverse_event VNone fresh_world)
  = inr (VDict
           [("statusCode", VInt 500);
            ("body",
             VStr ("{" ++ quoted "error" ++ ": "
                       ++ quoted "An error occurred (ThrottlingException) when calling the Converse operation: Too many requests"
                       ++ "}"))]).
Proof.
  exact (f_equal fst
           (proj1 (handler_converts_failure_to_500 nat failing_client reverse_event VNone
                     fresh_world _ (VStr "reverse a string") (VStr "Python") _
                     eq_refl eq_refl eq_refl))).
Defined.

(** C6: with both keys present, (1) when the first call raises, the
    routine sends no second request, the same exception comes out of the
    routine, and the handler answers 500 with its text; (2) in every run the
    handler answers either 200, and then both calls returned and the body
    holds the code the routine extracted from the second reply, or 500 with
    the text of the exception that ended the routine: there is no third
    outcome. *)
Theorem first_call_failure_fails_whole
  (client_state : Type)
  (converse : client_state -> converse_request -> result value * client_state)
  (event : dict) (context : value) (w : world client_state)
  (message code_language : value) :
  dict_get "message" event = Some message ->
  dict_get "code_language" event = Some code_language ->
  let first_turn := user_turn (task_analysis_prompt message code_language) in
  let second_turn := user_turn (code_generation_prompt code_language) in
  let routine := generate_code_using_bedrock converse message code_language w in
  let answer := lambda_handler converse event context w in
  (forall e c1,
      converse (bedrock_runtime w) (bedrock_request [first_turn]) = (inl e, c1) ->
      fst routine = inl e
      /\ requests (snd routine) = (requests w ++ [bedrock_request [first_turn]])%list
      /\ requests (snd answer) = (requests w ++ [bedrock_request [first_turn]])%list
      /\ fst answer
         = inr (VDict [("statusCode", VInt 500);
                       ("body", VStr (json_dumps (VDict [("error", VStr (exn_str e))])))]))
  /\ ((exists r1 c1 reply r2 c2 code,
          converse (bedrock_runtime w) (bedrock_request [first_turn]) = (inr r1, c1)
          /\ output_message r1 = inr reply
          /\ converse c1 (bedrock_request [first_turn; reply; second_turn]) = (inr r2, c2)
          /\ fst routine = inr code
          /\ requests (snd answer)
             = (requests w ++ [bedrock_request [first_turn];
                               bedrock_request [first_turn; reply; second_turn]])%list
          /\ fst answer
             = inr (VDict [("statusCode", VInt 200);
                           ("body", VStr (json_dumps (VDict [("code", code)])))]))
      \/ (exists e,
             fst routine = inl e
             /\ fst answer
                = inr (VDict [("statusCode", VInt 500);
                              ("body",
                               VStr (json_dumps (VDict [("error", VStr (exn_str e))])))]))).
Proof.
  intros Hm Hc first_turn second_turn routine answer.
  unfold answer; rewrite (lambda_handler_valid _ converse _ _ event context w Hm Hc).
  fold routine; split.
  - intros e c1 H1; unfold routine.
    rewrite (generate_first_call_raises _ _ _ _ _ _ _ H1); simpl.
    repeat split; reflexivity.
  - destruct (converse (bedrock_runtime w) (bedrock_request [first_turn]))
      as [[e | r1] c1] eqn:H1.
    { right; exists e; unfold routine.
      rewrite (generate_first_call_raises _ _ _ _ _ _ _ H1); split; reflexivity. }
    destruct (output_message r1) as [e | reply] eqn:Hr.
    { right; exists e; unfold routine.
      rewrite (generate_no_reply_message _ _ _ _ _ _ _ _ H1 Hr); split; reflexivity. }
    destruct (converse c1 (bedrock_request [first_turn; reply; second_turn]))
      as [r2 c2] eqn:H2.
    pose proof (generate_second_call _ _ _ _ _ _ _ _ _ _ H1 Hr H2) as Hg.
    fold routine in Hg; rewrite Hg.
    destruct (read_code r2) as [e | code] eqn:Hcode.
    { right; exists e; split; reflexivity. }
    left; exists r1, c1, reply.
    destruct r2 as [e | r2]; [discriminate |].
    exists r2, c2, code; repeat split; assumption || reflexivity.
Qed.

Lemma first_call_failure_fails_whole_witness :
  fst (generate_code_using_bedrock failing_client
         (VStr "reverse a string") (VStr "Python") fresh_world)
  = inl (Exn ClientError
           "An error occurred (ThrottlingException) when calling the Converse operation: Too many requests")
  /\ requests
       (snd (generate_code_using_bedrock failing_client
               (VStr "reverse a string") (VStr "Python") fresh_world))
     = [bedrock_request
          [user_turn (task_analysis_prompt (VStr "reverse a string") (VStr "Python"))]]
  /\ requests (snd (lambda_handler failing_client reverse_event VNone fresh_world))
     = [bedrock_request
          [user_turn (task_analysis_prompt (VStr "reverse a string") (VStr "Python"))]]
  /\ fst (lambda_handler failing_client reverse_event VNone fresh_world)
     = inr (VDict
              [("statusCode", VInt 500);
               ("body",
                VStr ("{" ++ quoted "error" ++ ": "
                          ++ quoted "An error occurred (ThrottlingException) when calling the Converse operation: Too many requests"
                          ++ "}"))]).
Proof.
  exact (proj1 (first_call_failure_fails_whole nat failing_client reverse_event VNone
                  fresh_world (VStr "reverse a string") (VStr "Python") eq_refl eq_refl)
           _ 1%nat eq_refl).
Defined.

(** ** The worked example *)

(** C8: on the event [{"message": "reverse a string", "code_language":
    "Python"}], with a client whose first response carries a reply message
    and whose second response carries a message whose first block with a
    ["text"] field holds [def reverse(s): return s[::-1]], the handler
    returns [{"statusCode": 200, "body": b}], [b] being the text
    [{"code": "def reverse(s): return s[::-1]"}]. *)
Theorem reverse_example
  (client_state : Type)
  (converse : client_state -> converse_request -> result value * client_state)
  (context : value) (w : world client_state)
  (r1 r2 : value) (c1 c2 : client_state) (reply : value)
  (fields : dict) (pre post : list value) (block : value) :
  let first_turn :=
    user_turn (task_analysis_prompt (VStr "reverse a string") (VStr "Python")) in
  let second_turn := user_turn (code_generation_prompt (VStr "Python")) in
  converse (bedrock_runtime w) (bedrock_request [first_turn]) = (inr r1, c1) ->
  output_message r1 = inr reply ->
  converse c1 (bedrock_request [first_turn; reply; second_turn]) = (inr r2, c2) ->
  output_message r2 = inr (VDict fields) ->
  dict_get "content" fields = Some (VList (pre ++ block :: post)) ->
  Forall no_text pre ->
  has_text block (VStr "def reverse(s): return s[::-1]") ->
  fst (lambda_handler converse
         [("message", VStr "reverse a string"); ("code_language", VStr "Python")]
         context w)
  = inr (VDict [("statusCode", VInt 200);
                ("body",
                 VStr ("{" ++ quoted "code" ++ ": "
                           ++ quoted "def reverse(s): return s[::-1]" ++ "}"))]).
Proof.
  intros first_turn second_turn H1 Hr H2 Hm2 Hcontent Hpre Hblock.
  rewrite (lambda_handler_valid _ converse (VStr "reverse a string") (VStr "Python")
             [("message", VStr "reverse a string"); ("code_language", VStr "Python")]
             context w eq_refl eq_refl).
  rewrite (generate_second_call _ _ _ _ _ _ _ _ _ _ H1 Hr H2).
  unfold read_code; simpl; rewrite Hm2; simpl.
  rewrite (extract_text_content _ _ Hcontent).
  rewrite (next_text_first _ _ _ _ Hpre Hblock).
  reflexivity.
Qed.

Lemma reverse_example_witness :
  fst (lambda_handler stub_client reverse_event VNone fresh_world)
  = inr (VDict [("statusCode", VInt 200);
                ("body",
                 VStr ("{" ++ quoted "code" ++ ": "
                           ++ quoted "def reverse(s): return s[::-1]" ++ "}"))]).
Proof.
  refine (reverse_example nat stub_client VNone fresh_world
            (converse_response (assistant_turn "1. Take s. 2. Reverse it."))
            (converse_response (assistant_turn "def reverse(s): return s[::-1]"))
            1%nat 2%nat
            (assistant_turn "1. Take s. 2. Reverse it.")
            [("role", VStr "assistant");
             ("content", VList [VDict [("text", VStr "def reverse(s): return s[::-1]")]])]
            [] [] (VDict [("text", VStr "def reverse(s): return s[::-1]")])
            eq_refl eq_refl eq_refl eq_refl eq_refl (Forall_nil _) _).
  exists [("text", VStr "def reverse(s): return s[::-1]")]; split; reflexivity.
Defined.

(** * Further properties of the code *)

(** ** Every run of the routine, by cases *)

Section Shapes.

Variable client_state : Type.
Variable converse : client_state -> converse_request -> result value * client_state.

(** A run of the routine ends in one of three ways: the first call raises,
    the first response has no reply message, or the second call is made. *)
Lemma generate_run_cases (message code_language : value) (w : world client_state) :
  let first_turn := user_turn (task_analysis_prompt message code_language) in
  let second_turn := user_turn (code_generation_prompt code_language) in
  let run := generate_code_using_bedrock converse message code_language w in
  (exists e c1,
      run = (inl e,
             {| bedrock_runtime := c1;
                requests := (requests w ++ [bedrock_request [first_turn]])%list;
                stdout := interaction_log e (stdout w) |}))
  \/ (exists reply r2 c2,
         run = (read_code r2,
                {| bedrock_runtime := c2;
                   requests :=
                     (requests w ++ [bedrock_request [first_turn];
                                     bedrock_request [first_turn; reply; second_turn]])%list;
                   stdout :=
                     match read_code r2 with
                     | inl e => interaction_log e (stdout w)
                     | inr _ => stdout w
                     end |})).
Proof.
  intros first_turn second_turn run; unfold run.
  destruct (converse (bedrock_runtime w) (bedrock_request [first_turn]))
    as [[e | r1] c1] eqn:H1.
  - left; exists e, c1; now apply generate_first_call_raises.
  - destruct (output_message r1) as [e | reply] eqn:Hr.
    + left; exists e, c1; now apply generate_no_reply_message with (r1 := r1).
    + destruct (converse c1 (bedrock_request [first_turn; reply; second_turn]))
        as [r2 c2] eqn:H2.
      right; exists reply, r2, c2; now apply generate_second_call with (r1 := r1) (c1 := c1).
Qed.

(** The requests and the lines a run of the routine adds. *)
Lemma generate_effects (message code_language : value) (w : world client_state) :
  let run := generate_code_using_bedrock converse message code_language w in
  exists conversations,
    requests (snd run) = (requests w ++ map bedrock_request conversations)%list
    /\ (1 <= List.length conversations <= 2)%nat
    /\ stdout (snd run)
       = match fst run with
         | inl e => interaction_log e (stdout w)
         | inr _ => stdout w
         end.
Proof.
  intros run; unfold run.
  destruct (generate_run_cases message code_language w)
    as [(e & c1 & ->) | (reply & r2 & c2 & ->)]; simpl.
  - eexists [_]; simpl; repeat split; lia.
  - eexists [_; _]; simpl; repeat split; lia.
Qed.

(** An event that lacks one of the two keys is answered 400 on the spot. *)
Lemma lambda_handler_invalid (event : dict) (context : value) (w : world client_state) :
  dict_in "message" event && dict_in "code_language" event = false ->
  exists text,
    lambda_handler converse event context w
    = (inr (response 400 (json_dumps (VDict [("error", VStr text)]))), w).
Proof.
  intros H; unfold lambda_handler, try_except.
  destruct (dict_in "message" event); simpl in *.
  - rewrite H; simpl; eauto.
  - eauto.
Qed.

End Shapes.

Lemma handler_outcome_requests {client_state : Type}
  (r : result value * world client_state) :
  requests (snd (handler_outcome r)) = requests (snd r).
Proof.
  destruct r as [[e | code] w']; reflexivity.
Qed.

Lemma bedrock_request_fixed_settings (conversations : list (list value)) :
  Forall fixed_settings (map bedrock_request conversations).
Proof.
  induction conversations as [| conversation rest IH]; simpl; constructor; auto.
  repeat split.
Qed.

(** Either a key is missing, or both are bound. *)
Lemma event_keys (event : dict) :
  dict_in "message" event && dict_in "code_language" event = false
  \/ exists message code_language,
      dict_get "message" event = Some message
      /\ dict_get "code_language" event = Some code_language.
Proof.
  destruct (dict_in "message" event) eqn:Hm; [| now left].
  destruct (dict_in "code_language" event) eqn:Hc; [| now left].
  apply dict_in_true in Hm, Hc; destruct Hm as [m Hm], Hc as [c Hc]; eauto.
Qed.

(** ** What every run of the handler does *)

(** X1: every request a run of the handler sends carries the same model
    identifier, the same system instruction and the same inference
    settings (2048 tokens at most, temperature 0.2), whatever the event and
    whatever the client answers; the requests sent before stay in place. *)
Theorem handler_requests_fixed_settings
  (client_state : Type)
  (converse : client_state -> converse_request -> result value * client_state)
  (event : dict) (context : value) (w : world client_state) :
  exists added,
    requests (snd (lambda_handler converse event context w))
    = (requests w ++ added)%list
    /\ Forall fixed_settings added.
Proof.
  destruct (event_keys event) as [H | (m & c & Hm & Hc)].
  - destruct (lambda_handler_invalid _ converse event context w H) as [text ->].
    exists []; simpl; rewrite app_nil_r; auto.
  - rewrite (lambda_handler_valid _ converse _ _ event context w Hm Hc).
    rewrite handler_outcome_requests.
    destruct (generate_effects _ converse m c w) as (conversations & -> & _).
    eexists; split; [reflexivity | apply bedrock_request_fixed_settings].
Qed.

(** X2: no [Exception] leaves the handler.  For every event that is a
    dict and every client that, at each call, returns a response or raises
    an instance of [Exception], the handler returns a dict with a status
    and a body: 200 with a body [{"code": ...}], or 400 or 500 with a body
    [{"error": <text>}].  What is no [Exception], such as
    [KeyboardInterrupt], is outside this statement: the [except] clause
    names [Exception]. *)
Theorem handler_always_answers
  (client_state : Type)
  (converse : client_state -> converse_request -> result value * client_state)
  (event : dict) (context : value) (w : world client_state) :
  exists status body,
    fst (lambda_handler converse event context w)
    = inr (VDict [("statusCode", VInt status); ("body", VStr body)])
    /\ ((status = 200 /\ exists code, body = json_dumps (VDict [("code", code)]))
        \/ ((status = 400 \/ status = 500)
            /\ exists text, body = json_dumps (VDict [("error", VStr text)]))).
Proof.
  destruct (event_keys event) as [H | (m & c & Hm & Hc)].
  - destruct (lambda_handler_invalid _ converse event context w H) as [text ->].
    eexists 400, _; split; [reflexivity |]; right; eauto.
  - rewrite (lambda_handler_valid _ converse _ _ event context w Hm Hc).
    destruct (generate_code_using_bedrock converse m c w) as [[e | code] w']; simpl.
    + eexists 500, _; split; [reflexivity |]; right; eauto.
    + eexists 200, _; split; [reflexivity |]; left; eauto.
Qed.

(** X3: a run of the handler sends no request when a key is missing, and
    one or two requests when both keys are present: never none, never a
    third. *)
Theorem handler_request_count
  (client_state : Type)
  (converse : client_state -> converse_request -> result value * client_state)
  (event : dict) (context : value) (w : world client_state) :
  exists added,
    requests (snd (lambda_handler converse event context w))
    = (requests w ++ added)%list
    /\ if dict_in "message" event && dict_in "code_language" event
       then (1 <= List.length added <= 2)%nat
       else added = [].
Proof.
  destruct (event_keys event) as [H | (m & c & Hm & Hc)].
  - destruct (lambda_handler_invalid _ converse event context w H) as [text ->].
    exists []; simpl; rewrite app_nil_r, H; auto.
  - rewrite (lambda_handler_valid _ converse _ _ event context w Hm Hc).
    rewrite handler_outcome_requests.
    destruct (generate_effects _ converse m c w) as (conversations & -> & Hlen & _).
    eexists; split; [reflexivity |].
    unfold dict_in; rewrite Hm, Hc; simpl; now rewrite length_map.
Qed.

(** X4: with both keys present, what a run prints follows the outcome of
    the routine: nothing when it returns, the handler's line when it
    raises, and before it the routine's own line when the exception is a
    [ClientError]; the lines printed before stay in place. *)
Theorem handler_output_lines
  (client_state : Type)
  (converse : client_state -> converse_request -> result value * client_state)
  (event : dict) (context : value) (w : world client_state)
  (message code_language : value) :
  dict_get "message" event = Some message ->
  dict_get "code_language" event = Some code_language ->
  stdout (snd (lambda_handler converse event context w))
  = (stdout w
       ++ failure_lines
            (fst (generate_code_using_bedrock converse message code_language w)))%list.
Proof.
  intros Hm Hc.
  rewrite (lambda_handler_valid _ converse _ _ event context w Hm Hc).
  destruct (generate_effects _ converse message code_language w) as (_ & _ & _ & Hout).
  destruct (generate_code_using_bedrock converse message code_language w)
    as [[e | code] w']; simpl in *; rewrite Hout.
  - unfold interaction_log; destruct (is_ClientError e); simpl.
    + now rewrite <- app_assoc.
    + reflexivity.
  - now rewrite app_nil_r.
Qed.

Lemma handler_output_lines_witness :
  stdout (snd (lambda_handler failing_client reverse_event VNone fresh_world))
  = ["Error during Bedrock interaction: An error occurred (ThrottlingException) when calling the Converse operation: Too many requests";
     "Error in lambda_handler: An error occurred (ThrottlingException) when calling the Converse operation: Too many requests"].
Proof.
  exact (handler_output_lines nat failing_client reverse_event VNone fresh_world
           (VStr "reverse a string") (VStr "Python") eq_refl eq_refl).
Defined.

(** ** The text-extraction helper off its stated domain *)

Lemma find_text_block_strings {A : Type} (f : A -> string) (l : list A) :
  find is_text_block (map (fun a => VStr (f a)) l) = None.
Proof.
  induction l as [| a l IH]; simpl; auto.
Qed.

(** X6: [_extract_text] returns the empty string on a message without the
    key ["content"], and also when the content is a [str] or a [dict]
    instead of a list of blocks: the text of a bare string is not
    returned. *)
Theorem extract_text_empty_off_lists (fields : dict) :
  dict_get "content" fields = None
  \/ (exists s, dict_get "content" fields = Some (VStr s))
  \/ (exists d, dict_get "content" fields = Some (VDict d)) ->
  _extract_text (VDict fields) = inr (VStr EmptyString).
Proof.
  unfold _extract_text; simpl.
  intros [-> | [[s ->] | [d ->]]]; simpl; auto; unfold next_text.
  - now rewrite (find_text_block_strings (fun c => string_of_char c)).
  - now rewrite (find_text_block_strings (fun kv : string * value => fst kv)).
Qed.

Lemma extract_text_empty_off_lists_witness :
  _extract_text
    (VDict [("role", VStr "assistant"); ("content", VStr "def reverse(s): return s[::-1]")])
  = inr (VStr EmptyString).
Proof.
  apply (extract_text_empty_off_lists
           [("role", VStr "assistant");
            ("content", VStr "def reverse(s): return s[::-1]")]).
  right; left; eexists; reflexivity.
Defined.

(** ** Responses of an unexpected shape, and the second call *)

(** X7: when the first response is a dict without the key ["output"], or
    with an ["output"] dict that has no key ["message"], the routine stops
    after that one request, and the handler answers 500 with the missing
    key between single quotes as the error text. *)
Theorem first_response_without_reply
  (client_state : Type)
  (converse : client_state -> converse_request -> result value * client_state)
  (event : dict) (context : value) (w : world client_state)
  (message code_language : value) (fields : dict) (c1 : client_state) (key : string) :
  dict_get "message" event = Some message ->
  dict_get "code_language" event = Some code_language ->
  converse (bedrock_runtime w)
    (bedrock_request [user_turn (task_analysis_prompt message code_language)])
  = (inr (VDict fields), c1) ->
  (dict_get "output" fields = None /\ key = "output")
  \/ (exists output,
         dict_get "output" fields = Some (VDict output)
         /\ dict_get "message" output = None /\ key = "message") ->
  lambda_handler converse event context w
  = (inr (VDict [("statusCode", VInt 500);
                 ("body",
                  VStr ("{" ++ quoted "error" ++ ": " ++ quoted ("'" ++ key ++ "'") ++ "}"))]),
     {| bedrock_runtime := c1;
        requests :=
          (requests w
             ++ [bedrock_request
                   [user_turn (task_analysis_prompt message code_language)]])%list;
        stdout := (stdout w ++ [("Error in lambda_handler: '" ++ key ++ "'")%string])%list |}).
Proof.
  intros Hm Hc H1 Hkey.
  rewrite (lambda_handler_valid _ converse _ _ event context w Hm Hc).
  assert (Hr : output_message (VDict fields) = inl (Exn KeyError ("'" ++ key ++ "'"))).
  { unfold output_message; simpl.
    destruct Hkey as [[Ho ->] | (output & Ho & Hmsg & ->)]; rewrite Ho; simpl.
    - reflexivity.
    - rewrite Hmsg; reflexivity. }
  rewrite (generate_no_reply_message _ _ _ _ _ _ _ _ H1 Hr).
  destruct Hkey as [[_ ->] | (_ & _ & _ & ->)]; reflexivity.
Qed.

Lemma first_response_without_reply_witness :
  lambda_handler scripted_client reverse_event VNone
    (scripted_world [inr (VDict [("ResponseMetadata", VDict [])])])
  = (inr (VDict [("statusCode", VInt 500);
                 ("body",
                  VStr ("{" ++ quoted "error" ++ ": " ++ quoted "'output'" ++ "}"))]),
     {| bedrock_runtime := [];
        requests :=
          [bedrock_request
             [user_turn (task_analysis_prompt (VStr "reverse a string") (VStr "Python"))]];
        stdout := ["Error in lambda_handler: 'output'"] |}).
Proof.
  apply (first_response_without_reply _ scripted_client reverse_event VNone
           (scripted_world [inr (VDict [("ResponseMetadata", VDict [])])])
           (VStr "reverse a string") (VStr "Python")
           [("ResponseMetadata", VDict [])] [] "output" eq_refl eq_refl eq_refl).
  left; split; reflexivity.
Defined.

(** X8: when the first call returns a reply and the second call raises,
    two requests have been sent, the exception of the second call comes out
    of the routine, nothing of the first reply is returned, and the handler
    answers 500 with the text of that exception, leaving the client in the
    state the second call left it in. *)
Theorem second_call_failure_500
  (client_state : Type)
  (converse : client_state -> converse_request -> result value * client_state)
  (event : dict) (context : value) (w : world client_state)
  (message code_language : value)
  (r1 : value) (c1 c2 : client_state) (reply : value) (e : exn) :
  let first_turn := user_turn (task_analysis_prompt message code_language) in
  let second_turn := user_turn (code_generation_prompt code_language) in
  dict_get "message" event = Some message ->
  dict_get "code_language" event = Some code_language ->
  converse (bedrock_runtime w) (bedrock_request [first_turn]) = (inr r1, c1) ->
  output_message r1 = inr reply ->
  converse c1 (bedrock_request [first_turn; reply; second_turn]) = (inl e, c2) ->
  fst (generate_code_using_bedrock converse message code_language w) = inl e
  /\ fst (lambda_handler converse event context w)
     = inr (VDict [("statusCode", VInt 500);
                   ("body", VStr (json_dumps (VDict [("error", VStr (exn_str e))])))])
  /\ requests (snd (lambda_handler converse event context w))
     = (requests w ++ [bedrock_request [first_turn];
                       bedrock_request [first_turn; reply; second_turn]])%list
  /\ bedrock_runtime (snd (lambda_handler converse event context w)) = c2.
Proof.
  intros first_turn second_turn Hm Hc H1 Hr H2.
  rewrite (lambda_handler_valid _ converse _ _ event context w Hm Hc).
  rewrite (generate_second_call _ _ _ _ _ _ _ _ _ _ H1 Hr H2); simpl.
  repeat split.
Qed.

Lemma second_call_failure_500_witness :
  fst (lambda_handler scripted_client reverse_event VNone
         (scripted_world
            [inr (converse_response (assistant_turn "1. Take s. 2. Reverse it."));
             inl (Exn ClientError "Read timeout on endpoint URL")]))
  = inr (VDict [("statusCode", VInt 500);
                ("body",
                 VStr ("{" ++ quoted "error" ++ ": "
                           ++ quoted "Read timeout on endpoint URL" ++ "}"))]).
Proof.
  exact (proj1 (proj2
           (second_call_failure_500 _ scripted_client reverse_event VNone
              (scripted_world
                 [inr (converse_response (assistant_turn "1. Take s. 2. Reverse it."));
                  inl (Exn ClientError "Read timeout on endpoint URL")])
              (VStr "reverse a string") (VStr "Python")
              (converse_response (assistant_turn "1. Take s. 2. Reverse it."))
              [inl (Exn ClientError "Read timeout on endpoint URL")] []
              (assistant_turn "1. Take s. 2. Reverse it.")
              (Exn ClientError "Read timeout on endpoint URL")
              eq_refl eq_refl eq_refl eq_refl eq_refl))).
Defined.

(** X9: when both calls return and the message of the second response is a
    dict whose content list holds no block with a ["text"] field, or that
    has no content at all, the handler answers 200 with the body
    [{"code": ""}]: an empty answer is a success, not an error. *)
Theorem reply_without_text_is_empty_success
  (client_state : Type)
  (converse : client_state -> converse_request -> result value * client_state)
  (event : dict) (context : value) (w : world client_state)
  (message code_language : value)
  (r1 r2 : value) (c1 c2 : client_state) (reply : value) (fields : dict) :
  let first_turn := user_turn (task_analysis_prompt message code_language) in
  let second_turn := user_turn (code_generation_prompt code_language) in
  dict_get "message" event = Some message ->
  dict_get "code_language" event = Some code_language ->
  converse (bedrock_runtime w) (bedrock_request [first_turn]) = (inr r1, c1) ->
  output_message r1 = inr reply ->
  converse c1 (bedrock_request [first_turn; reply; second_turn]) = (inr r2, c2) ->
  output_message r2 = inr (VDict fields) ->
  dict_get "content" fields = None
  \/ (exists content,
         dict_get "content" fields = Some (VList content) /\ Forall no_text content) ->
  lambda_handler converse event context w
  = (inr (VDict [("statusCode", VInt 200);
                 ("body",
                  VStr ("{" ++ quoted "code" ++ ": " ++ quoted EmptyString ++ "}"))]),
     {| bedrock_runtime := c2;
        requests :=
          (requests w ++ [bedrock_request [first_turn];
                          bedrock_request [first_turn; reply; second_turn]])%list;
        stdout := stdout w |}).
Proof.
  intros first_turn second_turn Hm Hc H1 Hr H2 Hr2 Hcontent.
  rewrite (lambda_handler_valid _ converse _ _ event context w Hm Hc).
  rewrite (generate_second_call _ _ _ _ _ _ _ _ _ _ H1 Hr H2).
  assert (Hcode : read_code (inr r2) = inr (VStr EmptyString)).
  { unfold read_code; simpl; rewrite Hr2; simpl.
    destruct Hcontent as [Hnone | (content & Hsome & Hno)].
    - unfold _extract_text; simpl; rewrite Hnone; reflexivity.
    - rewrite (extract_text_content _ _ Hsome); now apply next_text_none. }
  rewrite Hcode; reflexivity.
Qed.

Lemma reply_without_text_is_empty_success_witness :
  fst (lambda_handler scripted_client reverse_event VNone
         (scripted_world
            [inr (converse_response (assistant_turn "1. Take s. 2. Reverse it."));
             inr (converse_response
                    (VDict [("role", VStr "assistant"); ("content", VList [])]))]))
  = inr (VDict [("statusCode", VInt 200);
                ("body",
                 VStr ("{" ++ quoted "code" ++ ": " ++ quoted EmptyString ++ "}"))]).
Proof.
  refine (f_equal fst
            (reply_without_text_is_empty_success _ scripted_client reverse_event VNone
               (scripted_world
                  [inr (converse_response (assistant_turn "1. Take s. 2. Reverse it."));
                   inr (converse_response
                          (VDict [("role", VStr "assistant"); ("content", VList [])]))])
               (VStr "reverse a string") (VStr "Python")
               (converse_response (assistant_turn "1. Take s. 2. Reverse it."))
               (converse_response
                  (VDict [("role", VStr "assistant"); ("content", VList [])]))
               [inr (converse_response
                       (VDict [("role", VStr "assistant"); ("content", VList [])]))]
               []
               (assistant_turn "1. Take s. 2. Reverse it.")
               [("role", VStr "assistant"); ("content", VList [])]
               eq_refl eq_refl eq_refl eq_refl eq_refl eq_refl _)).
  right; exists []; split; [reflexivity | constructor].
Defined.

(** X5: when both calls return and the message of the second response is
    no dict, or is a dict whose ["content"] is [None], a bool or an int, the
    text extraction raises, an [AttributeError] in the first case and a
    [TypeError] in the second, and the handler answers 500 with the text of
    that exception after the two requests: such a reply is an error, not an
    empty success. *)
Theorem malformed_reply_message_500
  (client_state : Type)
  (converse : client_state -> converse_request -> result value * client_state)
  (event : dict) (context : value) (w : world client_state)
  (message code_language : value)
  (r1 r2 : value) (c1 c2 : client_state) (reply reply2 : value) :
  let first_turn := user_turn (task_analysis_prompt message code_language) in
  let second_turn := user_turn (code_generation_prompt code_language) in
  dict_get "message" event = Some message ->
  dict_get "code_language" event = Some code_language ->
  converse (bedrock_runtime w) (bedrock_request [first_turn]) = (inr r1, c1) ->
  output_message r1 = inr reply ->
  converse c1 (bedrock_request [first_turn; reply; second_turn]) = (inr r2, c2) ->
  output_message r2 = inr reply2 ->
  (forall fields, reply2 <> VDict fields)
  \/ (exists fields content,
         reply2 = VDict fields
         /\ dict_get "content" fields = Some content
         /\ (content = VNone \/ (exists b, content = VBool b) \/ (exists z, content = VInt z))) ->
  exists e,
    fst (generate_code_using_bedrock converse message code_language w) = inl e
    /\ exn_type e
       = match reply2 with
         | VDict _ => TypeError
         | _ => AttributeError
         end
    /\ fst (lambda_handler converse event context w)
       = inr (VDict [("statusCode", VInt 500);
                     ("body", VStr (json_dumps (VDict [("error", VStr (exn_str e))])))])
    /\ requests (snd (lambda_handler converse event context w))
       = (requests w ++ [bedrock_request [first_turn];
                         bedrock_request [first_turn; reply; second_turn]])%list.
Proof.
  intros first_turn second_turn Hm Hc H1 Hr H2 Hr2 Hshape.
  rewrite (lambda_handler_valid _ converse _ _ event context w Hm Hc).
  rewrite (generate_second_call _ _ _ _ _ _ _ _ _ _ H1 Hr H2).
  assert (Hcode : exists e,
             read_code (inr r2) = inl e
             /\ exn_type e = match reply2 with VDict _ => TypeError | _ => AttributeError end).
  { unfold read_code; simpl; rewrite Hr2; simpl; unfold _extract_text.
    destruct Hshape as [Hno | (fields & content & -> & Hcontent & Hkind)].
    - destruct reply2 as [| b | z | s | l | fields]; simpl; eauto.
      destruct (Hno fields eq_refl).
    - simpl; rewrite Hcontent; simpl.
      destruct Hkind as [-> | [[b ->] | [z ->]]]; simpl; eauto. }
  destruct Hcode as (e & -> & Hclass).
  exists e; simpl; repeat split; assumption.
Qed.

Lemma malformed_reply_message_500_witness :
  let run_world :=
    scripted_world
      [inr (converse_response (assistant_turn "1. Take s. 2. Reverse it."));
       inr (converse_response (VDict [("role", VStr "assistant"); ("content", VNone)]))] in
  exists e,
    fst (generate_code_using_bedrock scripted_client
           (VStr "reverse a string") (VStr "Python") run_world)
    = inl e
    /\ exn_type e = TypeError
    /\ fst (lambda_handler scripted_client reverse_event VNone run_world)
       = inr (VDict [("statusCode", VInt 500);
                     ("body", VStr (json_dumps (VDict [("error", VStr (exn_str e))])))])
    /\ List.length (requests (snd (lambda_handler scripted_client reverse_event VNone run_world)))
       = 2%nat.
Proof.
  intros run_world.
  destruct (malformed_reply_message_500 _ scripted_client reverse_event VNone run_world
              (VStr "reverse a string") (VStr "Python")
              (converse_response (assistant_turn "1. Take s. 2. Reverse it."))
              (converse_response
                 (VDict [("role", VStr "assistant"); ("content", VNone)]))
              [inr (converse_response
                      (VDict [("role", VStr "assistant"); ("content", VNone)]))]
              []
              (assistant_turn "1. Take s. 2. Reverse it.")
              (VDict [("role", VStr "assistant"); ("content", VNone)])
              eq_refl eq_refl eq_refl eq_refl eq_refl eq_refl
              (or_intror
                 (ex_intro _ [("role", VStr "assistant"); ("content", VNone)]
                    (ex_intro _ VNone
                       (conj eq_refl (conj eq_refl (or_introl eq_refl)))))))
    as (e & Hrun & Hclass & Hanswer & Hrequests).
  exists e; repeat split; assumption.
Defined.

(** ** What the handler reads of the event *)

(** X10: the handler reads the event through the keys ["message"] and
    ["code_language"] only, and does not read the context: two events that
    agree on these two keys get the same answer and cause the same
    requests and output, whatever else they hold. *)
Theorem handler_reads_two_keys_only
  (client_state : Type)
  (converse : client_state -> converse_request -> result value * client_state)
  (event event' : dict) (context context' : value) (w : world client_state) :
  dict_get "message" event = dict_get "message" event' ->
  dict_get "code_language" event = dict_get "code_language" event' ->
  lambda_handler converse event context w = lambda_handler converse event' context' w.
Proof.
  intros Hm Hc.
  destruct (dict_get "message" event') as [m |] eqn:Hm'.
  - destruct (dict_get "code_language" event') as [c |] eqn:Hc'.
    + rewrite (lambda_handler_valid _ converse _ _ event context w Hm Hc).
      now rewrite (lambda_handler_valid _ converse _ _ event' context' w Hm' Hc').
    + unfold lambda_handler, try_except, dict_in; rewrite Hm, Hc, Hm', Hc'; reflexivity.
  - unfold lambda_handler, try_except, dict_in; rewrite Hm, Hm'; reflexivity.
Qed.

Lemma handler_reads_two_keys_only_witness :
  lambda_handler stub_client
    (("requestId", VInt 7) :: reverse_event ++ [("debug", VBool true)])%list
    (VDict [("function_name", VStr "generate")]) fresh_world
  = lambda_handler stub_client reverse_event VNone fresh_world.
Proof.
  apply (handler_reads_two_keys_only nat stub_client
           (("requestId", VInt 7) :: reverse_event ++ [("debug", VBool true)])%list
           reverse_event (VDict [("function_name", VStr "generate")]) VNone fresh_world);
    reflexivity.
Defined.
